(** * Boiling-point calculator: the Clausius-Clapeyron engine of [app.py]

    A shallow embedding of the computational core of [app.py]:
    [get_compound_properties] (name lookup in the compound table),
    [calculate_new_boiling_point] (the integrated Clausius-Clapeyron
    relation) and the sampling steps of [main] ([np.linspace] followed by an
    element-wise evaluation).

    Numbers.  The program computes with numpy [float64] values.  They are
    modelled as extended reals: a finite value is an exact real number
    (rounding and overflow are not modelled), and the special values
    [+inf], [-inf] and [nan] are kept, with numpy's rules for them (a
    division by zero gives an infinity with a warning, it does not raise).
    Zero carries no sign: a zero divisor counts as [+0.0]. *)

From Stdlib Require Import Reals Lra Lia List ZArith String Ascii Bool.
Import ListNotations.

Open Scope R_scope.

(* ================================================================= *)
(** ** numpy scalars *)

Inductive float64 : Type :=
| Fin (r : R)
| PInf
| NInf
| NaN.

Declare Scope f64_scope.
Delimit Scope f64_scope with f64.
Bind Scope f64_scope with float64.

Module F64.

Definition Rneg (r : R) : bool := if Rlt_dec r 0 then true else false.

Definition is_neg (x : float64) : bool :=
  match x with
  | Fin r => Rneg r
  | NInf => true
  | PInf | NaN => false
  end.

Definition inf_of_sign (neg : bool) : float64 := if neg then NInf else PInf.

Definition opp (x : float64) : float64 :=
  match x with
  | Fin r => Fin (- r)
  | PInf => NInf
  | NInf => PInf
  | NaN => NaN
  end.

Definition add (x y : float64) : float64 :=
  match x, y with
  | NaN, _ | _, NaN => NaN
  | Fin a, Fin b => Fin (a + b)
  | PInf, NInf | NInf, PInf => NaN
  | PInf, _ | _, PInf => PInf
  | NInf, _ | _, NInf => NInf
  end.

Definition sub (x y : float64) : float64 := add x (opp y).

Definition mul (x y : float64) : float64 :=
  match x, y with
  | NaN, _ | _, NaN => NaN
  | Fin a, Fin b => Fin (a * b)
  | Fin a, _ =>
      if Req_dec_T a 0 then NaN else inf_of_sign (xorb (Rneg a) (is_neg y))
  | _, Fin b =>
      if Req_dec_T b 0 then NaN else inf_of_sign (xorb (is_neg x) (Rneg b))
  | _, _ => inf_of_sign (xorb (is_neg x) (is_neg y))
  end.

(** [x / y] on numpy scalars: a zero divisor gives [nan] for [0 / 0] and
    an infinity of the sign of [x] otherwise; nothing is raised. *)
Definition div (x y : float64) : float64 :=
  match x, y with
  | NaN, _ | _, NaN => NaN
  | Fin a, Fin b =>
      if Req_dec_T b 0
      then (if Req_dec_T a 0 then NaN else inf_of_sign (Rneg a))
      else Fin (a / b)
  | Fin _, _ => Fin 0
  | _, Fin b => inf_of_sign (xorb (is_neg x) (Rneg b))
  | _, _ => NaN
  end.

(** IEEE comparison [x <= y]: false as soon as one side is [nan]. *)
Definition le (x y : float64) : Prop :=
  match x, y with
  | NaN, _ | _, NaN => False
  | NInf, _ | _, PInf => True
  | Fin a, Fin b => a <= b
  | _, _ => False
  end.

Definition is_finite (x : float64) : Prop :=
  match x with Fin _ => True | _ => False end.

(** Strictly positive, strictly negative. *)
Definition pos (x : float64) : Prop :=
  match x with Fin r => 0 < r | PInf => True | _ => False end.

Definition neg (x : float64) : Prop :=
  match x with Fin r => r < 0 | NInf => True | _ => False end.

End F64.

Notation "x + y" := (F64.add x y) : f64_scope.
Notation "x - y" := (F64.sub x y) : f64_scope.
Notation "x * y" := (F64.mul x y) : f64_scope.
Notation "x / y" := (F64.div x y) : f64_scope.

(* ================================================================= *)
(** ** Exceptions *)

(** The two exceptions the modelled code can raise: [IndexError] (from
    [.iloc[0]] on an empty selection) and [ValueError] (from [np.linspace]
    with a negative number of samples). *)
Inductive exn : Type :=
| IndexError
| ValueError.

Inductive result (A : Type) : Type :=
| Ok (a : A)
| Raise (e : exn).

Arguments Ok {A} a.
Arguments Raise {A} e.

Definition bind {A B : Type} (m : result A) (k : A -> result B) : result B :=
  match m with
  | Ok a => k a
  | Raise e => Raise e
  end.

Notation "x <- m ;; k" := (bind m (fun x => k))
  (at level 61, m at next level, right associativity).

(* ================================================================= *)
(** ** The numpy functions the program calls *)

Module np.

(** [np.maximum]: the larger of the two, [nan] if either is [nan]. *)
Definition maximum (x y : float64) : float64 :=
  match x, y with
  | NaN, _ | _, NaN => NaN
  | PInf, _ | _, PInf => PInf
  | NInf, z | z, NInf => z
  | Fin a, Fin b => Fin (if Rle_dec a b then b else a)
  end.

Definition minimum (x y : float64) : float64 :=
  match x, y with
  | NaN, _ | _, NaN => NaN
  | NInf, _ | _, NInf => NInf
  | PInf, z | z, PInf => z
  | Fin a, Fin b => Fin (if Rle_dec a b then a else b)
  end.

(** [np.clip(a, a_min, a_max)]; [a_max = None] leaves the value unbounded
    above. *)
Definition clip (a a_min : float64) (a_max : option float64) : float64 :=
  match a_max with
  | None => maximum a a_min
  | Some m => minimum (maximum a a_min) m
  end.

(** [np.log]: [-inf] at zero, [nan] below zero (both with a warning). *)
Definition log (x : float64) : float64 :=
  match x with
  | Fin r =>
      if Rlt_dec 0 r then Fin (ln r)
      else if Req_dec_T r 0 then NInf else NaN
  | PInf => PInf
  | NInf | NaN => NaN
  end.

(** [y[-1] = v] on a one-dimensional array. *)
Definition set_last (y : list R) (v : R) : list R :=
  match y with
  | [] => []
  | _ :: _ => removelast y ++ [v]
  end.

(** [np.linspace(start, stop, num)] with the default [endpoint=True], as
    numpy computes it: [arange(0, num)] scaled by the step, shifted by
    [start], and the last element overwritten with [stop] when there are
    at least two samples.  A negative [num] raises [ValueError]. *)
Definition linspace (start stop : R) (num : Z) : result (list R) :=
  if (num <? 0)%Z then Raise ValueError
  else
    let div := (num - 1)%Z in
    let y := map INR (seq 0 (Z.to_nat num)) in
    let delta := stop - start in
    let y :=
      if (0 <? div)%Z then
        let step := delta / IZR div in
        if Req_dec_T step 0
        then map (fun v => v / IZR div * delta) y
        else map (fun v => v * step) y
      else map (fun v => v * delta) y in
    let y := map (fun v => v + start) y in
    Ok (if (1 <? num)%Z then set_last y stop else y).

End np.

(* ================================================================= *)
(** ** The compound table *)

(** A row of the DataFrame read from [chem_list.csv]: the columns ['Item'],
    ['Vap Enthalpy (kJ/mol)'], ['T2 (C)'] and ['P2 (torr)']. *)
Record row : Type := mkRow {
  Item : string;
  Vap_Enthalpy : float64;
  T2_C : float64;
  P2_torr : float64
}.

(** The DataFrame: its rows, in file order. *)
Definition DataFrame : Type := list row.

(** [df[df['Item'] == item_name]]: the rows whose name is equal to
    [item_name], in their order. *)
Definition select_item (df : DataFrame) (item_name : string) : DataFrame :=
  filter (fun r => String.eqb (Item r) item_name) df.

(** [.iloc[0]]: the first row, [IndexError] when there is none. *)
Definition iloc0 (df : DataFrame) : result row :=
  match df with
  | [] => Raise IndexError
  | r :: _ => Ok r
  end.

Definition get_compound_properties (df : DataFrame) (item_name : string)
  : result (float64 * float64 * float64) :=
  data_row <- iloc0 (select_item df item_name) ;;
  Ok (Vap_Enthalpy data_row, T2_C data_row, P2_torr data_row).

(** [df_compounds['Item'].tolist()] *)
Definition compound_list (df : DataFrame) : list string := map Item df.

(* ================================================================= *)
(** ** The equation *)

(** The bracketed denominator of the equation,
    [(1 / T2_K) - (R / H_vap) * np.log(P_safe / P2)], named so that
    statements can speak of it. *)
Definition denominator (P P2 boiling_point H_vap : float64) : float64 :=
  let R := Fin 8.314e-3 in
  let T2_K := (boiling_point + Fin 273.15)%f64 in
  let P_safe := np.clip P (Fin 1e-9) None in
  ((Fin 1 / T2_K) - (R / H_vap) * np.log (P_safe / P2))%f64.

Definition calculate_new_boiling_point (P P2 boiling_point H_vap : float64)
  : float64 :=
  let R := Fin 8.314e-3 in
  let T2_K := (boiling_point + Fin 273.15)%f64 in
  let P_safe := np.clip P (Fin 1e-9) None in
  let T1_K :=
    (Fin 1 / ((Fin 1 / T2_K) - (R / H_vap) * np.log (P_safe / P2)))%f64 in
  (T1_K - Fin 273.15)%f64.

(* ================================================================= *)
(** ** Sampling a curve *)

(** Steps 2 to 4 of [main]: the pressures [P_values] from [np.linspace],
    the temperatures [T_values] from the equation applied element-wise, and
    the two columns of [df_plot] side by side.  [main] passes the literal
    [1000] as the number of samples; it is a parameter here. *)
Definition generateCurve (pressureMin pressureMax : R) (sampleCount : Z)
    (p2_ref bp h_vap_ref : float64) : result (list (R * float64)) :=
  P_values <- np.linspace pressureMin pressureMax sampleCount ;;
  let T_values :=
    map (fun P => calculate_new_boiling_point (Fin P) p2_ref bp h_vap_ref)
        P_values in
  Ok (combine P_values T_values).

(** The computation of [main] for a selected compound and a slider range. *)
Definition main (df_compounds : DataFrame) (selected_compound : string)
    (pressure_range : R * R) : result (list (R * float64)) :=
  props <- get_compound_properties df_compounds selected_compound ;;
  let '(h_vap_ref, bp, p2_ref) := props in
  generateCurve (fst pressure_range) (snd pressure_range) 1000
                p2_ref bp h_vap_ref.

(** The pressure column of a curve. *)
Definition pressures (curve : list (R * float64)) : list R := map fst curve.

(** Pressures in strictly increasing order. *)
Definition strictly_increasing (l : list R) : Prop :=
  forall i j : nat, (i < j < List.length l)%nat -> nth i l 0 < nth j l 0.

Definition non_decreasing (l : list R) : Prop :=
  forall i j : nat, (i < j < List.length l)%nat -> nth i l 0 <= nth j l 0.

(* ================================================================= *)
(** ** The reference formula of the specification *)

(** The pressure floor: [clamp(P) = max(P, 1e-9)]. *)
Definition clamp (P : R) : R := Rmax P 1e-9.

(** The integrated Clausius-Clapeyron relation as the specification writes
    it, on real numbers: [T2_K = T2_celsius + 273.15],
    [T1_K = 1 / ((1/T2_K) - (R/H_vap) * ln(P_clamped / P2))], result
    [T1_K - 273.15].  The two reciprocals are taken on numpy scalars (a
    reciprocal of zero is an infinity); everything else is real
    arithmetic. *)
Definition predictTemperature (P P2 T2_celsius H_vap : R) : float64 :=
  let T2_K := T2_celsius + 273.15 in
  let T1_K :=
    (Fin 1 / ((Fin 1 / Fin T2_K)
              - Fin (8.314e-3 / H_vap * ln (clamp P / P2))))%f64 in
  (T1_K - Fin 273.15)%f64.

(** The bracketed denominator as a real number,
    [(1/T2_K) - (R/H_vap) * ln(clamp(P)/P2)]; it is the value of
    [denominator] wherever [T2_K] is not zero. *)
Definition real_denominator (P P2 T2_celsius H_vap : R) : R :=
  1 / (T2_celsius + 273.15) - 8.314e-3 / H_vap * ln (clamp P / P2).

(** Both denominators strictly on the same side of zero. *)
Definition same_side (x y : float64) : Prop :=
  (F64.pos x /\ F64.pos y) \/ (F64.neg x /\ F64.neg y).

(** The [i]-th of [m + 1] evenly spaced samples from [start] to [stop]. *)
Definition sample_at (start stop : R) (m i : nat) : R :=
  start + INR i * (stop - start) / INR m.

(** The triple [get_compound_properties] returns for a row. *)
Definition properties (r : row) : float64 * float64 * float64 :=
  (Vap_Enthalpy r, T2_C r, P2_torr r).

(** A small table used in the examples: water at its normal boiling point,
    ethanol, and a second row named Water (water at 25 C). *)
Definition water : row := mkRow "Water" (Fin 40.65) (Fin 100) (Fin 760).
Definition ethanol : row := mkRow "Ethanol" (Fin 38.56) (Fin 78.37) (Fin 760).
Definition water_25 : row := mkRow "Water" (Fin 44.0) (Fin 25) (Fin 23.8).

Definition sample_table : DataFrame := [ethanol; water; water_25].

(** The temperature column of a curve. *)
Definition temperatures (curve : list (R * float64)) : list float64 :=
  map snd curve.


(* ================================================================= *)
(** * Properties *)

(** ** Arithmetic on finite scalars *)

Section FiniteScalars.

Lemma div_fin (a b : R) : b <> 0 -> (Fin a / Fin b)%f64 = Fin (a / b).
Proof.
  intros Hb. unfold F64.div.
  destruct (Req_dec_T b 0) as [E | _]; [contradiction | reflexivity].
Qed.

Lemma div_fin_zero (a : R) : 0 < a -> (Fin a / Fin 0)%f64 = PInf.
Proof.
  intros Ha. unfold F64.div.
  destruct (Req_dec_T 0 0) as [_ | N]; [| now elim N].
  destruct (Req_dec_T a 0) as [E | _]; [lra |].
  unfold F64.Rneg. destruct (Rlt_dec a 0); [lra | reflexivity].
Qed.

Lemma log_fin (r : R) : 0 < r -> np.log (Fin r) = Fin (ln r).
Proof.
  intros Hr. unfold np.log.
  destruct (Rlt_dec 0 r); [reflexivity | contradiction].
Qed.

Lemma clip_floor (P : R) : np.clip (Fin P) (Fin 1e-9) None = Fin (clamp P).
Proof. reflexivity. Qed.

Lemma clamp_pos (P : R) : 0 < clamp P.
Proof.
  unfold clamp. pose proof (Rmax_r P 1e-9). lra.
Qed.

Lemma clamp_below (P : R) : P <= 1e-9 -> clamp P = 1e-9.
Proof. intros H. unfold clamp. now apply Rmax_right. Qed.

Lemma clamp_above (P : R) : 1e-9 <= P -> clamp P = P.
Proof. intros H. unfold clamp. now apply Rmax_left. Qed.

Lemma clamp_mono (Pa Pb : R) : Pa <= Pb -> clamp Pa <= clamp Pb.
Proof. intros H. unfold clamp. now apply Rle_max_compat_r. Qed.

Lemma ln_le_mono (x y : R) : 0 < x -> x <= y -> ln x <= ln y.
Proof.
  intros Hx [Hlt | ->]; [| lra].
  left. now apply ln_increasing.
Qed.

End FiniteScalars.

(** ** The denominator and the result on finite inputs *)

Section Equation.

Variables P P2 T2 H_vap : R.
Hypothesis P2_pos : 0 < P2.
Hypothesis H_pos : 0 < H_vap.

Lemma log_ratio :
  np.log (np.clip (Fin P) (Fin 1e-9) None / Fin P2)%f64
  = Fin (ln (clamp P / P2)).
Proof.
  rewrite clip_floor, div_fin by lra.
  apply log_fin. apply Rdiv_lt_0_compat; [apply clamp_pos | assumption].
Qed.

Lemma slope_term :
  ((Fin 8.314e-3 / Fin H_vap)
   * np.log (np.clip (Fin P) (Fin 1e-9) None / Fin P2))%f64
  = Fin (8.314e-3 / H_vap * ln (clamp P / P2)).
Proof. rewrite log_ratio, div_fin by lra. reflexivity. Qed.

Lemma denominator_fin :
  T2 + 273.15 <> 0 ->
  denominator (Fin P) (Fin P2) (Fin T2) (Fin H_vap) = Fin (real_denominator P P2 T2 H_vap).
Proof.
  intros HK. unfold denominator. cbv zeta.
  rewrite slope_term. cbn [F64.add].
  rewrite div_fin by assumption.
  unfold F64.sub, real_denominator. cbn. f_equal.
Qed.

Lemma denominator_zero_kelvin :
  T2 + 273.15 = 0 ->
  denominator (Fin P) (Fin P2) (Fin T2) (Fin H_vap) = PInf.
Proof.
  intros HK. unfold denominator. cbv zeta.
  rewrite slope_term. cbn [F64.add]. rewrite HK.
  rewrite div_fin_zero by lra. reflexivity.
Qed.

Lemma calculate_by_denominator :
  calculate_new_boiling_point (Fin P) (Fin P2) (Fin T2) (Fin H_vap)
  = (Fin 1 / denominator (Fin P) (Fin P2) (Fin T2) (Fin H_vap)
     - Fin 273.15)%f64.
Proof. reflexivity. Qed.

Lemma calculate_regular :
  T2 + 273.15 <> 0 -> real_denominator P P2 T2 H_vap <> 0 ->
  calculate_new_boiling_point (Fin P) (Fin P2) (Fin T2) (Fin H_vap)
  = Fin (1 / real_denominator P P2 T2 H_vap - 273.15).
Proof.
  intros HK HD. rewrite calculate_by_denominator, denominator_fin by assumption.
  rewrite div_fin by assumption. reflexivity.
Qed.

Lemma calculate_pole :
  T2 + 273.15 <> 0 -> real_denominator P P2 T2 H_vap = 0 ->
  calculate_new_boiling_point (Fin P) (Fin P2) (Fin T2) (Fin H_vap) = PInf.
Proof.
  intros HK HD. rewrite calculate_by_denominator, denominator_fin by assumption.
  rewrite HD, div_fin_zero by lra. reflexivity.
Qed.

Lemma calculate_zero_kelvin :
  T2 + 273.15 = 0 ->
  calculate_new_boiling_point (Fin P) (Fin P2) (Fin T2) (Fin H_vap)
  = Fin (- 273.15).
Proof.
  intros HK. rewrite calculate_by_denominator, denominator_zero_kelvin by assumption.
  cbn. f_equal. lra.
Qed.

Lemma calculate_as_specified :
  calculate_new_boiling_point (Fin P) (Fin P2) (Fin T2) (Fin H_vap)
  = predictTemperature P P2 T2 H_vap.
Proof.
  unfold calculate_new_boiling_point, predictTemperature. cbv zeta.
  rewrite slope_term. reflexivity.
Qed.

End Equation.

(** ** The equation against its reference formula *)

(** Claim C1.  For every pressure [P], every [P2 > 0], every [H_vap > 0]
    and every [T2_celsius], [calculate_new_boiling_point] returns the value
    of the integrated Clausius-Clapeyron reference formula
    [1 / ((1/(T2_celsius + 273.15)) - (R/H_vap) * ln(clamp(P)/P2)) - 273.15]
    with [R = 8.314e-3] and [clamp(P) = max(P, 1e-9)]: it is equal to
    [predictTemperature], and wherever neither reciprocal is taken at zero
    it is that real number. *)
Theorem calculate_new_boiling_point_reference_formula
    (P P2 T2_celsius H_vap : R) :
  0 < P2 -> 0 < H_vap ->
  calculate_new_boiling_point (Fin P) (Fin P2) (Fin T2_celsius) (Fin H_vap)
  = predictTemperature P P2 T2_celsius H_vap
  /\ (T2_celsius + 273.15 <> 0 ->
      1 / (T2_celsius + 273.15) - 8.314e-3 / H_vap * ln (Rmax P 1e-9 / P2)
      <> 0 ->
      calculate_new_boiling_point (Fin P) (Fin P2) (Fin T2_celsius) (Fin H_vap)
      = Fin (1 / (1 / (T2_celsius + 273.15)
                  - 8.314e-3 / H_vap * ln (Rmax P 1e-9 / P2))
             - 273.15)).
Proof.
  intros HP2 HH. split.
  - now apply calculate_as_specified.
  - intros HK HD. now apply calculate_regular.
Qed.

Lemma calculate_new_boiling_point_reference_formula_witness :
  calculate_new_boiling_point (Fin 100) (Fin 760) (Fin 100) (Fin 40.65)
  = predictTemperature 100 760 100 40.65
  /\ (100 + 273.15 <> 0 ->
      1 / (100 + 273.15) - 8.314e-3 / 40.65 * ln (Rmax 100 1e-9 / 760) <> 0 ->
      calculate_new_boiling_point (Fin 100) (Fin 760) (Fin 100) (Fin 40.65)
      = Fin (1 / (1 / (100 + 273.15)
                  - 8.314e-3 / 40.65 * ln (Rmax 100 1e-9 / 760))
             - 273.15)).
Proof.
  apply (calculate_new_boiling_point_reference_formula 100 760 100 40.65); lra.
Defined.

(** ** Evaluation at the reference pressure *)

Lemma calculate_at_reference (P2 T2 H_vap : R) :
  1e-9 <= P2 -> 0 < H_vap ->
  calculate_new_boiling_point (Fin P2) (Fin P2) (Fin T2) (Fin H_vap) = Fin T2.
Proof.
  intros HP2 HH.
  assert (HP2' : 0 < P2) by lra.
  assert (Hln : ln (clamp P2 / P2) = 0).
  { rewrite clamp_above by assumption.
    replace (P2 / P2) with 1 by (field; lra). apply ln_1. }
  destruct (Req_dec_T (T2 + 273.15) 0) as [HK | HK].
  - rewrite calculate_zero_kelvin by assumption. f_equal. lra.
  - assert (HD : real_denominator P2 P2 T2 H_vap = 1 / (T2 + 273.15)).
    { unfold real_denominator. rewrite Hln. lra. }
    rewrite calculate_regular; try assumption.
    + f_equal. rewrite HD. field. assumption.
    + rewrite HD. unfold Rdiv. rewrite Rmult_1_l.
      now apply Rinv_neq_0_compat.
Qed.

(** Claim C2.  Reference-point identity: for every record with [P2] above
    the clamping floor [1e-9] (hence [P2 > 0]), [H_vap > 0] and a finite
    [T2], evaluating the equation at the reference pressure gives back the
    reference boiling point. *)
Theorem reference_point_identity (P2 T2 H_vap : R) :
  1e-9 < P2 -> 0 < H_vap ->
  calculate_new_boiling_point (Fin P2) (Fin P2) (Fin T2) (Fin H_vap) = Fin T2.
Proof.
  intros HP2 HH. apply calculate_at_reference; lra.
Qed.

Lemma reference_point_identity_witness :
  calculate_new_boiling_point (Fin 760) (Fin 760) (Fin 100) (Fin 40.65)
  = Fin 100.
Proof.
  apply (reference_point_identity 760 100 40.65); lra.
Defined.

(** ** The pressure floor *)

Lemma calculate_clamped (P P2 T2 H_vap : float64) (p : R) :
  P = Fin p -> p <= 1e-9 ->
  calculate_new_boiling_point P P2 T2 H_vap
  = calculate_new_boiling_point (Fin 1e-9) P2 T2 H_vap.
Proof.
  intros -> Hp. unfold calculate_new_boiling_point. cbv zeta.
  rewrite !clip_floor. rewrite (clamp_below p), (clamp_below 1e-9) by lra.
  reflexivity.
Qed.

Lemma calculate_finite (P P2 T2 H_vap : R) :
  0 < P2 -> 0 < H_vap ->
  denominator (Fin P) (Fin P2) (Fin T2) (Fin H_vap) <> Fin 0 ->
  exists t : R,
    calculate_new_boiling_point (Fin P) (Fin P2) (Fin T2) (Fin H_vap) = Fin t.
Proof.
  intros HP2 HH HD.
  destruct (Req_dec_T (T2 + 273.15) 0) as [HK | HK].
  - eexists. now apply calculate_zero_kelvin.
  - eexists. apply calculate_regular; try assumption.
    intros E. apply HD. rewrite denominator_fin by assumption. now f_equal.
Qed.

(** Claim C3.  Clamping safety: for every [P <= 0] and every non-singular
    [P2 > 0], [H_vap > 0], [T2] (the denominator is not zero), the equation
    returns a finite value, the same one as at [P = 1e-9]; no exception is
    raised and the value is not [nan]. *)
Theorem clamping_safety (P P2 T2 H_vap : R) :
  P <= 0 -> 0 < P2 -> 0 < H_vap ->
  denominator (Fin P) (Fin P2) (Fin T2) (Fin H_vap) <> Fin 0 ->
  exists t : R,
    calculate_new_boiling_point (Fin P) (Fin P2) (Fin T2) (Fin H_vap) = Fin t
    /\ calculate_new_boiling_point (Fin 1e-9) (Fin P2) (Fin T2) (Fin H_vap)
       = Fin t.
Proof.
  intros HP HP2 HH HD.
  destruct (calculate_finite P P2 T2 H_vap HP2 HH HD) as [t Ht].
  exists t. split; [assumption |].
  rewrite <- Ht. symmetry. apply (calculate_clamped _ _ _ _ P); [reflexivity | lra].
Qed.

Lemma ln_below_one (x : R) : 0 < x -> x < 1 -> ln x < 0.
Proof.
  intros H0 H1. rewrite <- ln_1. now apply ln_increasing.
Qed.

(** Water at the pressure floor is far from the pole. *)
Lemma water_floor_regular (P : R) :
  P <= 0 ->
  denominator (Fin P) (Fin 760) (Fin 100) (Fin 40.65) <> Fin 0.
Proof.
  intros HP. rewrite denominator_fin by lra.
  unfold real_denominator. rewrite clamp_below by lra.
  assert (Hln : ln (1e-9 / 760) < 0) by (apply ln_below_one; lra).
  intros E. injection E as E.
  assert (0 < 8.314e-3 / 40.65) by lra.
  assert (0 < 1 / (100 + 273.15)) by (apply Rdiv_lt_0_compat; lra).
  nra.
Qed.

Lemma clamping_safety_witness :
  exists t : R,
    calculate_new_boiling_point (Fin (-5)) (Fin 760) (Fin 100) (Fin 40.65)
    = Fin t
    /\ calculate_new_boiling_point (Fin 1e-9) (Fin 760) (Fin 100) (Fin 40.65)
       = Fin t.
Proof.
  apply (clamping_safety (-5) 760 100 40.65); try lra.
  apply water_floor_regular. lra.
Defined.

(** ** The pole of the equation *)

(** Every reference state above absolute zero, with a reference pressure
    not below the floor, has a pressure at which the denominator vanishes. *)
Lemma pole_pressure (P2 T2 H_vap : R) :
  1e-9 <= P2 -> 0 < H_vap -> 0 < T2 + 273.15 ->
  real_denominator (P2 * exp (H_vap / (8.314e-3 * (T2 + 273.15)))) P2 T2 H_vap
  = 0.
Proof.
  intros HP2 HH HK. unfold real_denominator.
  set (x := H_vap / (8.314e-3 * (T2 + 273.15))).
  assert (Hx : 0 < x) by (apply Rdiv_lt_0_compat; lra).
  assert (Hexp : 1 <= exp x) by (pose proof (exp_ineq1_le x); lra).
  rewrite clamp_above by nra.
  replace (P2 * exp x / P2) with (exp x) by (field; lra).
  rewrite ln_exp. unfold x. field. lra.
Qed.

Lemma calculate_at_pole (P2 T2 H_vap : R) :
  1e-9 <= P2 -> 0 < H_vap -> 0 < T2 + 273.15 ->
  let P := P2 * exp (H_vap / (8.314e-3 * (T2 + 273.15))) in
  denominator (Fin P) (Fin P2) (Fin T2) (Fin H_vap) = Fin 0
  /\ calculate_new_boiling_point (Fin P) (Fin P2) (Fin T2) (Fin H_vap) = PInf.
Proof.
  intros HP2 HH HK P.
  pose proof (pole_pressure P2 T2 H_vap HP2 HH HK) as HD. fold P in HD.
  split.
  - rewrite denominator_fin by lra. now f_equal.
  - apply calculate_pole; [lra | lra | lra | assumption].
Qed.

(** Claim C9.  The singularity is unguarded: there are inputs with
    [P2 > 0], [H_vap > 0] and a finite [T2] (water: 760 torr, 100 C,
    40.65 kJ/mol) at which the bracketed denominator is exactly zero; the
    division is carried out all the same and the result is not a finite
    number. *)
Theorem singularity_unguarded :
  exists P P2 T2 H_vap : R,
    0 < P2 /\ 0 < H_vap
    /\ denominator (Fin P) (Fin P2) (Fin T2) (Fin H_vap) = Fin 0
    /\ ~ F64.is_finite
         (calculate_new_boiling_point (Fin P) (Fin P2) (Fin T2) (Fin H_vap)).
Proof.
  exists (760 * exp (40.65 / (8.314e-3 * (100 + 273.15)))), 760, 100, 40.65.
  destruct (calculate_at_pole 760 100 40.65) as [HD HR]; try lra.
  cbv zeta in HD, HR.
  repeat split; try lra; try assumption.
  rewrite HR. cbn. tauto.
Qed.

(** The division is never guarded: a zero denominator always gives [+inf]. *)
Lemma zero_denominator_infinite (P P2 T2 H_vap : float64) :
  denominator P P2 T2 H_vap = Fin 0 ->
  calculate_new_boiling_point P P2 T2 H_vap = PInf.
Proof.
  intros HD.
  change (calculate_new_boiling_point P P2 T2 H_vap)
    with (Fin 1 / denominator P P2 T2 H_vap - Fin 273.15)%f64.
  rewrite HD, div_fin_zero by lra. reflexivity.
Qed.

(** ** Monotonicity in the pressure *)

(** The denominator decreases as the pressure grows. *)
Lemma real_denominator_antitone (Pa Pb P2 T2 H_vap : R) :
  0 < P2 -> 0 < H_vap -> Pa <= Pb ->
  real_denominator Pb P2 T2 H_vap <= real_denominator Pa P2 T2 H_vap.
Proof.
  intros HP2 HH Hab. unfold real_denominator.
  assert (Hln : ln (clamp Pa / P2) <= ln (clamp Pb / P2)).
  { apply ln_le_mono.
    - apply Rdiv_lt_0_compat; [apply clamp_pos | assumption].
    - unfold Rdiv. apply Rmult_le_compat_r.
      + left. now apply Rinv_0_lt_compat.
      + now apply clamp_mono. }
  assert (Hs : 0 < 8.314e-3 / H_vap) by (apply Rdiv_lt_0_compat; lra).
  nra.
Qed.

Lemma Rinv_antitone_same_sign (a b : R) :
  b <= a -> (0 < b \/ a < 0) -> 1 / a <= 1 / b.
Proof.
  intros Hba Hs. unfold Rdiv. rewrite !Rmult_1_l.
  destruct Hba as [Hlt | ->]; [| lra].
  left. apply Rinv_lt_contravar; [| assumption].
  destruct Hs; nra.
Qed.

(** Claim C4, counterexample.  Water (760 torr, 100 C, 40.65 kJ/mol): the
    pole lies between 760 torr and 1e10 torr, so the higher pressure is
    given the lower temperature. *)
Lemma monotonicity_fails_across_pole :
  0 < 760 /\ 0 < 40.65 /\ 760 < 1e10
  /\ ~ F64.le
       (calculate_new_boiling_point (Fin 760) (Fin 760) (Fin 100) (Fin 40.65))
       (calculate_new_boiling_point (Fin 1e10) (Fin 760) (Fin 100) (Fin 40.65)).
Proof.
  repeat split; try lra.
  rewrite calculate_at_reference by lra.
  assert (Hln3 : 1 <= ln 3).
  { rewrite <- (ln_exp 1). apply ln_le_mono; [apply exp_pos | apply exp_le_3]. }
  assert (Hln : 14 <= ln (clamp 1e10 / 760)).
  { rewrite clamp_above by lra.
    apply Rle_trans with (ln (3 ^ 14)).
    - rewrite ln_pow by lra. simpl INR. lra.
    - apply ln_le_mono; [apply pow_lt; lra | lra]. }
  assert (HD : real_denominator 1e10 760 100 40.65 < 0).
  { unfold real_denominator.
    assert (8.314e-3 / 40.65 * 14 <= 8.314e-3 / 40.65 * ln (clamp 1e10 / 760))
      by (apply Rmult_le_compat_l; lra).
    lra. }
  rewrite calculate_regular by lra.
  intros Hle. cbv beta iota delta [F64.le] in Hle.
  assert (1 / real_denominator 1e10 760 100 40.65 < 0).
  { unfold Rdiv. rewrite Rmult_1_l. now apply Rinv_neg. }
  lra.
Qed.

(** Claim C4, amended.  For fixed [P2 > 0], [T2] and [H_vap > 0], the
    equation is monotonically increasing in the pressure on each side of
    its pole: for all [P_a < P_b] whose denominators have the same strict
    sign, the temperature at [P_a] is at most the temperature at [P_b]. *)
Theorem monotone_on_each_side_of_pole (Pa Pb P2 T2 H_vap : R) :
  0 < P2 -> 0 < H_vap -> Pa < Pb ->
  same_side (denominator (Fin Pa) (Fin P2) (Fin T2) (Fin H_vap))
            (denominator (Fin Pb) (Fin P2) (Fin T2) (Fin H_vap)) ->
  F64.le (calculate_new_boiling_point (Fin Pa) (Fin P2) (Fin T2) (Fin H_vap))
         (calculate_new_boiling_point (Fin Pb) (Fin P2) (Fin T2) (Fin H_vap)).
Proof.
  intros HP2 HH Hab Hside.
  destruct (Req_dec_T (T2 + 273.15) 0) as [HK | HK].
  - rewrite !calculate_zero_kelvin by assumption. cbn. lra.
  - rewrite !denominator_fin in Hside by assumption.
    pose proof (real_denominator_antitone Pa Pb P2 T2 H_vap HP2 HH
                  (Rlt_le _ _ Hab)) as Hanti.
    assert (Hinv : 1 / real_denominator Pa P2 T2 H_vap
                   <= 1 / real_denominator Pb P2 T2 H_vap).
    { apply Rinv_antitone_same_sign; [assumption |].
      destruct Hside as [[_ Hb] | [Ha _]]; cbn in *; [now left | now right]. }
    assert (Ha0 : real_denominator Pa P2 T2 H_vap <> 0)
      by (destruct Hside as [[Ha _] | [Ha _]]; cbn in Ha; lra).
    assert (Hb0 : real_denominator Pb P2 T2 H_vap <> 0)
      by (destruct Hside as [[_ Hb] | [_ Hb]]; cbn in Hb; lra).
    rewrite !calculate_regular by assumption.
    cbv beta iota delta [F64.le]. lra.
Qed.

Lemma water_below_reference_same_side :
  same_side (denominator (Fin 100) (Fin 760) (Fin 100) (Fin 40.65))
            (denominator (Fin 760) (Fin 760) (Fin 100) (Fin 40.65)).
Proof.
  left. rewrite !denominator_fin by lra.
  assert (H760 : real_denominator 760 760 100 40.65 = 1 / (100 + 273.15)).
  { unfold real_denominator. rewrite clamp_above by lra.
    replace (760 / 760) with 1 by lra. rewrite ln_1. lra. }
  assert (Hpos : 0 < 1 / (100 + 273.15)) by (apply Rdiv_lt_0_compat; lra).
  pose proof (real_denominator_antitone 100 760 760 100 40.65) as Hanti.
  cbv beta iota delta [F64.pos]. lra.
Qed.

Lemma monotone_on_each_side_of_pole_witness :
  F64.le (calculate_new_boiling_point (Fin 100) (Fin 760) (Fin 100) (Fin 40.65))
         (calculate_new_boiling_point (Fin 760) (Fin 760) (Fin 100) (Fin 40.65)).
Proof.
  apply (monotone_on_each_side_of_pole 100 760 760 100 40.65); try lra.
  exact water_below_reference_same_side.
Defined.

(** ** Sampling: [np.linspace] *)

Section Linspace.

Variables start stop : R.

Lemma set_last_snoc (l : list R) (a v : R) :
  np.set_last (l ++ [a]) v = l ++ [v].
Proof.
  unfold np.set_last. destruct (l ++ [a]) as [| x t] eqn:E.
  - now destruct l.
  - rewrite <- E, removelast_last. reflexivity.
Qed.

Lemma set_last_length (l : list R) (v : R) :
  List.length (np.set_last l v) = List.length l.
Proof.
  destruct l as [| x t] using rev_ind; [reflexivity |].
  rewrite set_last_snoc, !length_app. reflexivity.
Qed.

Lemma linspace_negative (num : Z) :
  (num < 0)%Z -> np.linspace start stop num = Raise ValueError.
Proof.
  intros Hnum. unfold np.linspace.
  now apply Z.ltb_lt in Hnum as ->.
Qed.

Lemma linspace_length (num : Z) :
  (0 <= num)%Z ->
  exists y : list R,
    np.linspace start stop num = Ok y /\ List.length y = Z.to_nat num.
Proof.
  intros Hnum. unfold np.linspace.
  apply Z.ltb_ge in Hnum as ->. cbv zeta.
  eexists. split; [reflexivity |].
  assert (Hlen : forall y : list R,
             List.length (if (1 <? num)%Z then np.set_last y stop else y)
             = List.length y).
  { intros y. destruct (1 <? num)%Z; [apply set_last_length | reflexivity]. }
  rewrite Hlen, length_map.
  destruct (0 <? num - 1)%Z; [destruct (Req_dec_T _ 0) |];
    now rewrite !length_map, length_seq.
Qed.

Lemma linspace_one : np.linspace start stop 1 = Ok [start].
Proof.
  unfold np.linspace.
  change (1 <? 0)%Z with false. change (0 <? 1 - 1)%Z with false.
  change (1 <? 1)%Z with false. change (Z.to_nat 1) with 1%nat.
  cbn [seq map INR]. do 2 f_equal. lra.
Qed.

Lemma linspace_samples (num : Z) :
  (2 <= num)%Z ->
  np.linspace start stop num
  = Ok (map (sample_at start stop (Z.to_nat num - 1))
            (seq 0 (Z.to_nat num))).
Proof.
  intros Hnum. unfold np.linspace.
  assert (E1 : (num <? 0)%Z = false) by (apply Z.ltb_ge; lia).
  assert (E2 : (0 <? num - 1)%Z = true) by (apply Z.ltb_lt; lia).
  assert (E3 : (1 <? num)%Z = true) by (apply Z.ltb_lt; lia).
  rewrite E1, E2, E3. cbv zeta.
  assert (Hm : exists m : nat,
             Z.to_nat num = S m /\ IZR (num - 1) = INR m /\ 0 < INR m).
  { exists (Z.to_nat num - 1)%nat. repeat split.
    - lia.
    - rewrite INR_IZR_INZ. f_equal. lia.
    - apply lt_0_INR. lia. }
  destruct Hm as (m & -> & -> & Hpos).
  replace (S m - 1)%nat with m by lia.
  f_equal. rewrite seq_S. cbn [Nat.add].
  destruct (Req_dec_T ((stop - start) / INR m) 0) as [Hz | Hnz];
    rewrite !map_app; cbn [map]; rewrite set_last_snoc, !map_map;
    (f_equal;
     [ apply map_ext; intros i; unfold sample_at; field; lra
     | f_equal; unfold sample_at; field; lra ]).
Qed.

Lemma nth_samples (m n i : nat) :
  (i < n)%nat ->
  nth i (map (sample_at start stop m) (seq 0 n)) 0 = sample_at start stop m i.
Proof.
  intros Hi.
  rewrite (nth_indep _ 0 (sample_at start stop m 0))
    by now rewrite length_map, length_seq.
  rewrite map_nth, seq_nth by assumption. reflexivity.
Qed.

Lemma sample_at_lt (m i j : nat) :
  (0 < m)%nat -> start < stop -> (i < j)%nat ->
  sample_at start stop m i < sample_at start stop m j.
Proof.
  intros Hm Hlt Hij. unfold sample_at.
  assert (0 < INR m) by now apply lt_0_INR.
  assert (INR i < INR j) by now apply lt_INR.
  assert (0 < (stop - start) / INR m) by (apply Rdiv_lt_0_compat; lra).
  unfold Rdiv in *. rewrite !Rmult_assoc. nra.
Qed.

Lemma sample_at_flat (m i : nat) :
  start = stop -> sample_at start stop m i = start.
Proof.
  intros ->. unfold sample_at. unfold Rdiv. ring.
Qed.

End Linspace.

(** ** Curves *)

Section Curves.

Variables p2_ref bp h_vap_ref : float64.

Lemma pressures_combine (f : R -> float64) (l : list R) :
  pressures (combine l (map f l)) = l.
Proof.
  unfold pressures. induction l as [| x t IH]; cbn; [reflexivity |].
  now rewrite IH.
Qed.

Lemma generateCurve_ok (pressureMin pressureMax : R) (num : Z)
    (P_values : list R) :
  np.linspace pressureMin pressureMax num = Ok P_values ->
  exists curve : list (R * float64),
    generateCurve pressureMin pressureMax num p2_ref bp h_vap_ref = Ok curve
    /\ pressures curve = P_values
    /\ List.length curve = List.length P_values.
Proof.
  intros HP. unfold generateCurve. rewrite HP. cbn [bind].
  eexists. split; [reflexivity |]. split.
  - apply pressures_combine.
  - rewrite length_combine, length_map. apply Nat.min_id.
Qed.

Lemma generateCurve_total (pressureMin pressureMax : R) (num : Z) :
  (0 <= num)%Z ->
  exists curve : list (R * float64),
    generateCurve pressureMin pressureMax num p2_ref bp h_vap_ref = Ok curve
    /\ List.length curve = Z.to_nat num.
Proof.
  intros Hnum.
  destruct (linspace_length pressureMin pressureMax num Hnum) as (y & Hy & Hlen).
  destruct (generateCurve_ok _ _ _ _ Hy) as (curve & Hc & _ & Hl).
  exists curve. split; [assumption | congruence].
Qed.

Lemma generateCurve_negative (pressureMin pressureMax : R) (num : Z) :
  (num < 0)%Z ->
  generateCurve pressureMin pressureMax num p2_ref bp h_vap_ref
  = Raise ValueError.
Proof.
  intros Hnum. unfold generateCurve.
  now rewrite linspace_negative.
Qed.

(** The curve of at least two samples: its pressures are the evenly
    spaced samples. *)
Lemma generateCurve_samples (pressureMin pressureMax : R) (num : Z) :
  (2 <= num)%Z ->
  exists curve : list (R * float64),
    generateCurve pressureMin pressureMax num p2_ref bp h_vap_ref = Ok curve
    /\ List.length curve = Z.to_nat num
    /\ pressures curve
       = map (sample_at pressureMin pressureMax (Z.to_nat num - 1))
             (seq 0 (Z.to_nat num)).
Proof.
  intros Hnum.
  destruct (generateCurve_ok _ _ _ _ (linspace_samples pressureMin pressureMax
                                        num Hnum))
    as (curve & Hc & Hp & Hl).
  exists curve. repeat split; try assumption.
  now rewrite Hl, length_map, length_seq.
Qed.

End Curves.

Lemma samples_strictly_increasing (start stop : R) (n : nat) :
  start < stop -> (2 <= n)%nat ->
  strictly_increasing (map (sample_at start stop (n - 1)) (seq 0 n)).
Proof.
  intros Hlt Hn i j. rewrite length_map, length_seq. intros [Hij Hj].
  rewrite !nth_samples by lia.
  apply sample_at_lt; [lia | assumption | assumption].
Qed.

Lemma samples_first (start stop : R) (n : nat) :
  (2 <= n)%nat ->
  hd 0 (map (sample_at start stop (n - 1)) (seq 0 n)) = start.
Proof.
  intros Hn. destruct n as [| n]; [lia |]. cbn [seq map hd].
  unfold sample_at. cbn [INR]. unfold Rdiv. ring.
Qed.

Lemma samples_last (start stop : R) (n : nat) :
  (2 <= n)%nat ->
  last (map (sample_at start stop (n - 1)) (seq 0 n)) 0 = stop.
Proof.
  intros Hn. destruct n as [| m]; [lia |].
  replace (S m - 1)%nat with m by lia.
  rewrite seq_S, map_app. cbn [map Nat.add]. rewrite last_last.
  unfold sample_at. field. apply not_0_INR. lia.
Qed.

(** Claim C5.  Curve cardinality and endpoints: the curve sampled from 1.0
    to 760.0 with 1000 samples (for any record) has exactly 1000 points,
    its first pressure is 1.0, its last pressure is 760.0, and its
    pressures are strictly increasing. *)
Theorem curve_default_range (p2_ref bp h_vap_ref : float64) :
  exists curve : list (R * float64),
    generateCurve 1 760 1000 p2_ref bp h_vap_ref = Ok curve
    /\ List.length curve = 1000%nat
    /\ hd 0 (pressures curve) = 1
    /\ last (pressures curve) 0 = 760
    /\ strictly_increasing (pressures curve).
Proof.
  destruct (generateCurve_samples p2_ref bp h_vap_ref 1 760 1000)
    as (curve & Hc & Hl & Hp); [lia |].
  exists curve. rewrite Hp.
  assert (Hn : (2 <= Z.to_nat 1000)%nat) by lia.
  repeat split.
  - assumption.
  - rewrite Hl. lia.
  - now apply samples_first.
  - now apply samples_last.
  - apply samples_strictly_increasing; [lra | assumption].
Qed.

Lemma sample_at_le (start stop : R) (m i j : nat) :
  (0 < m)%nat -> start <= stop -> (i < j)%nat ->
  sample_at start stop m i <= sample_at start stop m j.
Proof.
  intros Hm [Hlt | Heq] Hij.
  - left. now apply sample_at_lt.
  - rewrite !sample_at_flat by assumption. lra.
Qed.

Lemma short_non_decreasing (l : list R) :
  (List.length l <= 1)%nat -> non_decreasing l.
Proof. intros Hl i j Hij. lia. Qed.

Lemma samples_non_decreasing (start stop : R) (n : nat) :
  start <= stop -> (2 <= n)%nat ->
  non_decreasing (map (sample_at start stop (n - 1)) (seq 0 n)).
Proof.
  intros Hle Hn i j. rewrite length_map, length_seq. intros [Hij Hj].
  rewrite !nth_samples by lia.
  apply sample_at_le; [lia | assumption | assumption].
Qed.




(** ** Lookup by name *)

Section Lookup.

Variable item_name : string.

Lemma select_item_none (df : DataFrame) :
  (forall r, In r df -> Item r <> item_name) -> select_item df item_name = [].
Proof.
  intros Hnone. unfold select_item.
  induction df as [| x t IH]; [reflexivity |]. cbn [filter].
  assert (Hx : (Item x =? item_name)%string = false)
    by (apply String.eqb_neq, Hnone; now left).
  rewrite Hx. apply IH. intros r Hr. apply Hnone. now right.
Qed.

Lemma select_item_first (pre post : DataFrame) (r : row) :
  (forall x, In x pre -> Item x <> item_name) -> Item r = item_name ->
  select_item (pre ++ r :: post) item_name = r :: select_item post item_name.
Proof.
  intros Hpre Hr. unfold select_item. rewrite filter_app.
  fold (select_item pre item_name). rewrite select_item_none by assumption.
  cbn [filter app].
  now apply String.eqb_eq in Hr as ->.
Qed.

Lemma get_first_match (pre post : DataFrame) (r : row) :
  (forall x, In x pre -> Item x <> item_name) -> Item r = item_name ->
  get_compound_properties (pre ++ r :: post) item_name = Ok (properties r).
Proof.
  intros Hpre Hr. unfold get_compound_properties.
  now rewrite select_item_first.
Qed.

Lemma get_absent (df : DataFrame) :
  (forall r, In r df -> Item r <> item_name) ->
  get_compound_properties df item_name = Raise IndexError.
Proof.
  intros Hnone. unfold get_compound_properties.
  now rewrite select_item_none.
Qed.

(** A table with a row of the given name splits at the first such row. *)
Lemma first_match_split (df : DataFrame) :
  (exists r, In r df /\ Item r = item_name) ->
  exists pre r post,
    df = pre ++ r :: post
    /\ (forall x, In x pre -> Item x <> item_name)
    /\ Item r = item_name.
Proof.
  induction df as [| x t IH]; intros (r & Hin & Hr); [destruct Hin |].
  destruct (string_dec (Item x) item_name) as [Hx | Hx].
  - exists [], x, t. repeat split; [intros y [] | assumption].
  - destruct IH as (pre & r' & post & -> & Hpre & Hr').
    + destruct Hin as [-> | Hin]; [contradiction | now exists r].
    + exists (x :: pre), r', post. repeat split; [| assumption].
      intros y [<- | Hy]; [assumption | now apply Hpre].
Qed.

Lemma get_present (df : DataFrame) :
  (exists r, In r df /\ Item r = item_name) ->
  exists r,
    In r df /\ Item r = item_name
    /\ get_compound_properties df item_name = Ok (properties r).
Proof.
  intros Hex.
  destruct (first_match_split df Hex) as (pre & r & post & -> & Hpre & Hr).
  exists r. repeat split; [| assumption | now apply get_first_match].
  apply in_or_app. right. now left.
Qed.

End Lookup.

(** Claim C8.  Lookup exactness: the lookup returns a row whose name is
    equal to the argument, character for character, and it fails (with the
    [IndexError] of [.iloc[0]], the not-found failure) when no row has
    exactly that name; "Water" and "water" are different names, so a table
    with a "Water" row and no "water" row answers the first and fails on
    the second. *)
Theorem lookup_exactness (df : DataFrame) (name : string) :
  ((exists r, In r df /\ Item r = name) ->
   exists r,
     In r df /\ Item r = name
     /\ get_compound_properties df name = Ok (properties r))
  /\ ((forall r, In r df -> Item r <> name) ->
      get_compound_properties df name = Raise IndexError)
  /\ ((exists r, In r df /\ Item r = "Water"%string) ->
      (forall r, In r df -> Item r <> "water"%string) ->
      (exists t, get_compound_properties df "Water" = Ok t)
      /\ get_compound_properties df "water" = Raise IndexError).
Proof.
  split; [apply get_present |]. split; [apply get_absent |].
  intros Hex Hnone. split.
  - destruct (get_present "Water" df Hex) as (r & _ & _ & Hr). now exists (properties r).
  - now apply get_absent.
Qed.

Lemma sample_table_no_lowercase :
  forall r, In r sample_table -> Item r <> "water"%string.
Proof.
  intros r [<- | [<- | [<- | []]]]; discriminate.
Qed.

Lemma lookup_exactness_witness :
  (exists t, get_compound_properties sample_table "Water" = Ok t)
  /\ get_compound_properties sample_table "water" = Raise IndexError.
Proof.
  apply (proj2 (proj2 (lookup_exactness sample_table "Water"))).
  - exists water. split; [right; now left | reflexivity].
  - exact sample_table_no_lowercase.
Defined.

(** Claim C10.  Duplicate names: when several rows of the table carry the
    looked-up name, the lookup returns the triple of the first of them in
    file order; the rows after it, further rows of the same name included,
    are ignored and nothing fails. *)
Theorem lookup_first_of_duplicates (pre post : DataFrame) (r : row)
    (name : string) :
  (forall x, In x pre -> Item x <> name) -> Item r = name ->
  get_compound_properties (pre ++ r :: post) name = Ok (properties r).
Proof.
  apply get_first_match.
Qed.

Lemma lookup_first_of_duplicates_witness :
  get_compound_properties ([ethanol] ++ water :: [water_25]) "Water"
  = Ok (Fin 40.65, Fin 100, Fin 760).
Proof.
  apply (lookup_first_of_duplicates [ethanol] [water_25] water "Water").
  - intros x [<- | []]. discriminate.
  - reflexivity.
Defined.

(** ** The program *)

(** [main] samples 1000 points for whatever range the slider gives, as
    soon as the selected compound is in the table. *)
Lemma main_samples_1000 (df : DataFrame) (selected_compound : string)
    (pressure_range : R * R) :
  (exists r, In r df /\ Item r = selected_compound) ->
  exists curve : list (R * float64),
    main df selected_compound pressure_range = Ok curve
    /\ List.length curve = 1000%nat.
Proof.
  intros Hex. destruct (get_present _ _ Hex) as (r & _ & _ & Hr).
  unfold main. rewrite Hr. cbn [bind properties].
  destruct (generateCurve_total (P2_torr r) (T2_C r) (Vap_Enthalpy r)
              (fst pressure_range) (snd pressure_range) 1000)
    as (curve & Hc & Hl); [lia |].
  exists curve. split; [assumption |]. rewrite Hl. lia.
Qed.

(* ================================================================= *)
(** * Further properties of the equation *)

(** ** Special values are passed on *)

Lemma add_nan_l (y : float64) : (NaN + y)%f64 = NaN.
Proof. reflexivity. Qed.

Lemma add_nan_r (x : float64) : (x + NaN)%f64 = NaN.
Proof. now destruct x. Qed.

Lemma sub_nan_l (y : float64) : (NaN - y)%f64 = NaN.
Proof. reflexivity. Qed.

Lemma sub_nan_r (x : float64) : (x - NaN)%f64 = NaN.
Proof. now destruct x. Qed.

Lemma mul_nan_r (x : float64) : (x * NaN)%f64 = NaN.
Proof. now destruct x. Qed.

Lemma div_nan_l (y : float64) : (NaN / y)%f64 = NaN.
Proof. reflexivity. Qed.

Lemma div_nan_r (x : float64) : (x / NaN)%f64 = NaN.
Proof. now destruct x. Qed.

Lemma calculate_of_nan_denominator (P P2 T2 H_vap : float64) :
  denominator P P2 T2 H_vap = NaN ->
  calculate_new_boiling_point P P2 T2 H_vap = NaN.
Proof.
  intros HD.
  change (calculate_new_boiling_point P P2 T2 H_vap)
    with (Fin 1 / denominator P P2 T2 H_vap - Fin 273.15)%f64.
  now rewrite HD.
Qed.

Lemma denominator_of_nan_log (P P2 T2 H_vap : float64) :
  np.log (np.clip P (Fin 1e-9) None / P2)%f64 = NaN ->
  denominator P P2 T2 H_vap = NaN.
Proof.
  intros HL. unfold denominator. cbv zeta.
  now rewrite HL, mul_nan_r, sub_nan_r.
Qed.

(** Property X1.  A [nan] in any of the four arguments (a missing cell of
    the table, for instance) is not caught: the result is [nan]. *)
Theorem nan_propagates (P P2 T2 H_vap : float64) :
  P = NaN \/ P2 = NaN \/ T2 = NaN \/ H_vap = NaN ->
  calculate_new_boiling_point P P2 T2 H_vap = NaN.
Proof.
  intros [-> | [-> | [-> | ->]]]; apply calculate_of_nan_denominator.
  - apply denominator_of_nan_log. reflexivity.
  - apply denominator_of_nan_log. now rewrite div_nan_r.
  - unfold denominator. cbv zeta. now rewrite add_nan_l, div_nan_r.
  - unfold denominator. cbv zeta. now rewrite div_nan_r, sub_nan_r.
Qed.

Lemma nan_propagates_witness :
  calculate_new_boiling_point (Fin 100) (Fin 760) (Fin 100) NaN = NaN.
Proof.
  apply (nan_propagates (Fin 100) (Fin 760) (Fin 100) NaN).
  right. right. right. reflexivity.
Defined.

Lemma clip_positive (P : float64) :
  (exists c : R, 0 < c /\ np.clip P (Fin 1e-9) None = Fin c)
  \/ np.clip P (Fin 1e-9) None = PInf
  \/ np.clip P (Fin 1e-9) None = NaN.
Proof.
  destruct P as [p | | |].
  - left. exists (clamp p). split; [apply clamp_pos | apply clip_floor].
  - right. now left.
  - left. exists 1e-9. split; [lra | reflexivity].
  - right. now right.
Qed.

(** Property X2.  A negative reference pressure is not rejected: the ratio
    [P_safe / P2] is then negative (or [nan]), its logarithm is [nan], and
    the result is [nan] at every pressure. *)
Theorem negative_reference_pressure_gives_nan (P T2 H_vap : float64) (P2 : R) :
  P2 < 0 ->
  calculate_new_boiling_point P (Fin P2) T2 H_vap = NaN.
Proof.
  intros HP2. apply calculate_of_nan_denominator, denominator_of_nan_log.
  destruct (clip_positive P) as [(c & Hc & ->) | [-> | ->]].
  - rewrite div_fin by lra. unfold np.log.
    assert (Hneg : c / P2 < 0).
    { unfold Rdiv. apply Rinv_neg in HP2. nra. }
    destruct (Rlt_dec 0 (c / P2)); [lra |].
    destruct (Req_dec_T (c / P2) 0); [lra | reflexivity].
  - unfold F64.div, F64.is_neg, F64.Rneg.
    destruct (Rlt_dec P2 0); [reflexivity | contradiction].
  - reflexivity.
Qed.

Lemma negative_reference_pressure_gives_nan_witness :
  calculate_new_boiling_point (Fin 100) (Fin (-760)) (Fin 100) (Fin 40.65)
  = NaN.
Proof.
  apply (negative_reference_pressure_gives_nan
           (Fin 100) (Fin 100) (Fin 40.65) (-760)).
  lra.
Defined.

(** ** Degenerate records *)

(** Property X3.  A reference boiling point at absolute zero makes
    [1 / T2_K] a division by zero; nothing is raised, and the prediction is
    -273.15 at every pressure. *)
Theorem reference_at_absolute_zero (P P2 H_vap : R) :
  0 < P2 -> 0 < H_vap ->
  calculate_new_boiling_point (Fin P) (Fin P2) (Fin (-273.15)) (Fin H_vap)
  = Fin (-273.15).
Proof.
  intros HP2 HH. apply calculate_zero_kelvin; lra.
Qed.

Lemma reference_at_absolute_zero_witness :
  calculate_new_boiling_point (Fin 100) (Fin 760) (Fin (-273.15)) (Fin 40.65)
  = Fin (-273.15).
Proof.
  apply (reference_at_absolute_zero 100 760 40.65); lra.
Defined.

Lemma ln_zero_only_at_one (x : R) : 0 < x -> x <> 1 -> ln x <> 0.
Proof.
  intros Hx Hne. destruct (Rlt_le_dec x 1) as [Hlt | Hge].
  - pose proof (ln_below_one x Hx Hlt). lra.
  - assert (H1 : 1 < x) by lra.
    pose proof (ln_increasing 1 x Rlt_0_1 H1) as Hln. rewrite ln_1 in Hln. lra.
Qed.

(** Property X4.  A zero enthalpy is not rejected either: [R / H_vap] is
    then infinite, and the prediction is -273.15 at every pressure whose
    clamped value differs from [P2], and [nan] where it equals [P2]. *)
Theorem zero_enthalpy (P P2 T2 : R) :
  0 < P2 -> T2 + 273.15 <> 0 ->
  (clamp P <> P2 ->
   calculate_new_boiling_point (Fin P) (Fin P2) (Fin T2) (Fin 0)
   = Fin (-273.15))
  /\ (clamp P = P2 ->
      calculate_new_boiling_point (Fin P) (Fin P2) (Fin T2) (Fin 0) = NaN).
Proof.
  intros HP2 HK.
  assert (Hinf : (Fin 8.314e-3 / Fin 0)%f64 = PInf) by (apply div_fin_zero; lra).
  assert (Hlog : np.log (np.clip (Fin P) (Fin 1e-9) None / Fin P2)%f64
                 = Fin (ln (clamp P / P2))) by now apply log_ratio.
  unfold calculate_new_boiling_point. cbv zeta.
  rewrite Hinf, Hlog. cbn [F64.add]. rewrite (div_fin 1) by assumption.
  split; intros Hc.
  - assert (Hl : ln (clamp P / P2) <> 0).
    { apply ln_zero_only_at_one.
      - apply Rdiv_lt_0_compat; [apply clamp_pos | assumption].
      - intros E. apply Hc. apply (Rmult_eq_compat_r P2) in E.
        unfold Rdiv in E. rewrite Rmult_assoc, Rinv_l, Rmult_1_r in E; lra. }
    unfold F64.mul. destruct (Req_dec_T (ln (clamp P / P2)) 0) as [E | _];
      [contradiction |].
    destruct (F64.Rneg (ln (clamp P / P2))); cbn; f_equal; lra.
  - rewrite Hc. replace (P2 / P2) with 1 by (field; lra). rewrite ln_1.
    unfold F64.mul. destruct (Req_dec_T 0 0) as [_ | N]; [| now elim N].
    reflexivity.
Qed.

Lemma zero_enthalpy_witness :
  (clamp 100 <> 760 ->
   calculate_new_boiling_point (Fin 100) (Fin 760) (Fin 100) (Fin 0)
   = Fin (-273.15))
  /\ (clamp 100 = 760 ->
      calculate_new_boiling_point (Fin 100) (Fin 760) (Fin 100) (Fin 0) = NaN).
Proof.
  apply (zero_enthalpy 100 760 100); lra.
Defined.

(** ** Changing the reference state *)









(** ** Where the prediction is meaningful *)

(** Property X7.  Up to the reference pressure there is no pole: for a
    reference state above absolute zero and not below the pressure floor,
    every pressure [P <= P2] (zero and negative pressures included) is
    given a finite temperature above absolute zero. *)
Theorem below_reference_pressure (P P2 T2 H_vap : R) :
  1e-9 <= P2 -> 0 < H_vap -> 0 < T2 + 273.15 -> P <= P2 ->
  exists t : R,
    calculate_new_boiling_point (Fin P) (Fin P2) (Fin T2) (Fin H_vap) = Fin t
    /\ -273.15 < t.
Proof.
  intros HP2 HH HK HP.
  assert (Hc : 0 < clamp P <= P2).
  { split; [apply clamp_pos |]. unfold clamp. apply Rmax_lub; lra. }
  assert (Hln : ln (clamp P / P2) <= 0).
  { rewrite <- ln_1. apply ln_le_mono.
    - apply Rdiv_lt_0_compat; lra.
    - apply Rmult_le_reg_r with P2; [lra |].
      unfold Rdiv. rewrite Rmult_assoc, Rinv_l, Rmult_1_r; lra. }
  assert (Hs : 0 < 8.314e-3 / H_vap) by (apply Rdiv_lt_0_compat; lra).
  assert (Hk : 0 < / (T2 + 273.15)) by now apply Rinv_0_lt_compat.
  assert (HD0 : 0 < real_denominator P P2 T2 H_vap).
  { unfold real_denominator. unfold Rdiv at 1. rewrite Rmult_1_l. nra. }
  exists (1 / real_denominator P P2 T2 H_vap - 273.15). split.
  - apply calculate_regular; lra.
  - pose proof (Rinv_0_lt_compat _ HD0).
    unfold Rdiv. rewrite Rmult_1_l. lra.
Qed.

Lemma below_reference_pressure_witness :
  exists t : R,
    calculate_new_boiling_point (Fin 100) (Fin 760) (Fin 100) (Fin 40.65)
    = Fin t
    /\ -273.15 < t.
Proof.
  apply (below_reference_pressure 100 760 100 40.65); lra.
Defined.

(** Property X8.  Off the pole and off absolute zero the prediction is a
    finite temperature, and it lies above absolute zero exactly when the
    denominator is positive: past the pole the equation returns
    temperatures below -273.15. *)
Theorem above_absolute_zero_iff_before_pole (P P2 T2 H_vap : R) :
  0 < P2 -> 0 < H_vap -> T2 + 273.15 <> 0 ->
  denominator (Fin P) (Fin P2) (Fin T2) (Fin H_vap) <> Fin 0 ->
  exists t : R,
    calculate_new_boiling_point (Fin P) (Fin P2) (Fin T2) (Fin H_vap) = Fin t
    /\ (-273.15 < t <->
        F64.pos (denominator (Fin P) (Fin P2) (Fin T2) (Fin H_vap)))
    /\ (t < -273.15 <->
        F64.neg (denominator (Fin P) (Fin P2) (Fin T2) (Fin H_vap))).
Proof.
  intros HP2 HH HK HD.
  rewrite denominator_fin in * by assumption.
  set (D := real_denominator P P2 T2 H_vap) in *.
  assert (HD0 : D <> 0) by (intros E; apply HD; now f_equal).
  exists (1 / D - 273.15). split; [now apply calculate_regular |].
  cbv beta iota delta [F64.pos F64.neg].
  unfold Rdiv. rewrite Rmult_1_l.
  destruct (Rdichotomy _ _ HD0) as [Hneg | Hpos].
  - pose proof (Rinv_neg _ Hneg). split; split; intros; lra.
  - pose proof (Rinv_0_lt_compat _ Hpos). split; split; intros; lra.
Qed.

Lemma above_absolute_zero_iff_before_pole_witness :
  exists t : R,
    calculate_new_boiling_point (Fin 0) (Fin 760) (Fin 100) (Fin 40.65) = Fin t
    /\ (-273.15 < t <->
        F64.pos (denominator (Fin 0) (Fin 760) (Fin 100) (Fin 40.65)))
    /\ (t < -273.15 <->
        F64.neg (denominator (Fin 0) (Fin 760) (Fin 100) (Fin 40.65))).
Proof.
  apply (above_absolute_zero_iff_before_pole 0 760 100 40.65); try lra.
  apply water_floor_regular. lra.
Defined.

(* ================================================================= *)
(** * Further properties of the sampling *)

Lemma linspace_zero (start stop : R) : np.linspace start stop 0 = Ok [].
Proof. reflexivity. Qed.

Lemma sample_at_bounds (start stop : R) (m i : nat) :
  start <= stop -> (0 < m)%nat -> (i <= m)%nat ->
  start <= sample_at start stop m i <= stop.
Proof.
  intros Hle Hm Hi. unfold sample_at.
  assert (Hm' : 0 < INR m) by now apply lt_0_INR.
  assert (Hi0 : 0 <= INR i) by apply pos_INR.
  assert (Him : INR i <= INR m) by now apply le_INR.
  assert (Hq : 0 <= INR i / INR m <= 1).
  { split.
    - apply Rle_mult_inv_pos; assumption.
    - apply Rmult_le_reg_r with (INR m); [assumption |].
      unfold Rdiv. rewrite Rmult_assoc, Rinv_l, Rmult_1_r; lra. }
  replace (INR i * (stop - start) / INR m)
    with (INR i / INR m * (stop - start)) by (field; lra).
  nra.
Qed.

Lemma linspace_bounded (start stop : R) (num : Z) :
  start <= stop -> (0 <= num)%Z ->
  exists y : list R,
    np.linspace start stop num = Ok y
    /\ Forall (fun p => start <= p <= stop) y.
Proof.
  intros Hle Hnum.
  destruct (Z_lt_le_dec num 2) as [Hsmall | Hbig].
  - assert (Hcases : num = 0%Z \/ num = 1%Z) by lia.
    destruct Hcases as [-> | ->].
    + exists []. split; [apply linspace_zero | constructor].
    + exists [start]. split; [apply linspace_one |].
      constructor; [lra | constructor].
  - eexists. split; [now apply linspace_samples |].
    apply Forall_forall. intros p Hp.
    apply in_map_iff in Hp as (i & <- & Hi). apply in_seq in Hi.
    apply sample_at_bounds; [assumption | lia | lia].
Qed.

(** Property X10.  The samples of [np.linspace] never leave the requested
    interval: for [start <= stop] and any number of samples that is not
    negative, every sample lies between [start] and [stop]. *)
Theorem linspace_within_bounds (start stop : R) (num : Z) :
  start <= stop -> (0 <= num)%Z ->
  exists y : list R,
    np.linspace start stop num = Ok y
    /\ Forall (fun p => start <= p <= stop) y.
Proof.
  apply linspace_bounded.
Qed.

Lemma linspace_within_bounds_witness :
  exists y : list R,
    np.linspace 1 760 1000 = Ok y
    /\ Forall (fun p => 1 <= p <= 760) y.
Proof.
  apply (linspace_within_bounds 1 760 1000); [lra | lia].
Defined.

(* ================================================================= *)
(** * Further properties of the program *)


Lemma generateCurve_points (pressureMin pressureMax : R) (num : Z)
    (p2_ref bp h_vap_ref : float64) (y : list R) :
  np.linspace pressureMin pressureMax num = Ok y ->
  generateCurve pressureMin pressureMax num p2_ref bp h_vap_ref
  = Ok (combine y
          (map (fun P => calculate_new_boiling_point (Fin P) p2_ref bp
                           h_vap_ref) y)).
Proof.
  intros Hy. unfold generateCurve. now rewrite Hy.
Qed.

Lemma listed_has_row (df : DataFrame) (name : string) :
  In name (compound_list df) <-> exists r, In r df /\ Item r = name.
Proof.
  unfold compound_list. rewrite in_map_iff.
  split; intros (r & H1 & H2); exists r; tauto.
Qed.






(** Property X13.  [main] fails exactly when the selected name is not in
    the table, and then with the [IndexError] of the lookup; the sampling
    never fails, whatever the range. *)
Theorem main_fails_only_on_unknown_compound (df : DataFrame)
    (selected_compound : string) (pressure_range : R * R) :
  (main df selected_compound pressure_range = Raise IndexError
   <-> ~ In selected_compound (compound_list df))
  /\ main df selected_compound pressure_range <> Raise ValueError.
Proof.
  destruct (in_dec string_dec selected_compound (compound_list df))
    as [Hin | Hout].
  - destruct (main_samples_1000 df selected_compound pressure_range)
      as (curve & Hc & _); [now apply listed_has_row |].
    rewrite Hc. split; [split; [discriminate | contradiction] | discriminate].
  - assert (Hget : get_compound_properties df selected_compound
                   = Raise IndexError).
    { apply get_absent. intros r Hr E. apply Hout.
      apply listed_has_row. now exists r. }
    unfold main. rewrite Hget. cbn [bind].
    split; [tauto | discriminate].
Qed.

(** Property X14.  Lookup round trip: in a table whose names are all
    different, every row is found under its own name. *)
Theorem lookup_round_trip (df : DataFrame) (r : row) :
  NoDup (compound_list df) -> In r df ->
  get_compound_properties df (Item r) = Ok (properties r).
Proof.
  intros Hnd Hin.
  apply in_split in Hin as (pre & post & ->).
  apply get_first_match; [| reflexivity].
  intros x Hx E.
  unfold compound_list in Hnd. rewrite map_app in Hnd. cbn [map] in Hnd.
  apply NoDup_remove_2 in Hnd. apply Hnd.
  apply in_or_app. left. rewrite <- E. now apply in_map.
Qed.

Lemma lookup_round_trip_witness :
  get_compound_properties [ethanol; water] (Item water) = Ok (properties water).
Proof.
  apply (lookup_round_trip [ethanol; water] water).
  - repeat constructor; cbn; intuition discriminate.
  - right. now left.
Defined.

(** ** The plotted curve below the reference pressure *)

Lemma temperatures_combine (f : R -> float64) (l : list R) :
  temperatures (combine l (map f l)) = map f l.
Proof.
  unfold temperatures. induction l as [| x t IH]; cbn; [reflexivity |].
  now rewrite IH.
Qed.

Lemma map_non_decreasing (g : R -> R) (l : list R) :
  non_decreasing l ->
  (forall a b, In a l -> In b l -> a <= b -> g a <= g b) ->
  non_decreasing (map g l).
Proof.
  intros Hl Hg i j. rewrite length_map. intros Hij.
  rewrite !(nth_indep (map g l) 0 (g 0)) by (rewrite length_map; lia).
  rewrite !map_nth.
  apply Hg; [apply nth_In; lia | apply nth_In; lia | now apply Hl].
Qed.

Lemma linspace_ordered_within (start stop : R) (num : Z) :
  start <= stop -> (0 <= num)%Z ->
  exists y : list R,
    np.linspace start stop num = Ok y
    /\ non_decreasing y
    /\ Forall (fun p => start <= p <= stop) y.
Proof.
  intros Hle Hnum.
  destruct (linspace_bounded start stop num Hle Hnum) as (y & Hy & Hall).
  exists y. split; [assumption |]. split; [| assumption].
  destruct (Z_lt_le_dec num 2) as [Hsmall | Hbig].
  - destruct (linspace_length start stop num Hnum) as (y' & Hy' & Hlen).
    assert (y' = y) by congruence. subst y'.
    apply short_non_decreasing. lia.
  - rewrite (linspace_samples start stop num Hbig) in Hy.
    injection Hy as <-.
    apply samples_non_decreasing; [assumption | lia].
Qed.

Lemma real_denominator_below_reference (P P2 T2 H_vap : R) :
  1e-9 <= P -> P <= P2 -> 0 < H_vap ->
  / (T2 + 273.15) <= real_denominator P P2 T2 H_vap.
Proof.
  intros HP HPP2 HH. unfold real_denominator.
  rewrite clamp_above by assumption.
  assert (Hln : ln (P / P2) <= 0).
  { rewrite <- ln_1. apply ln_le_mono.
    - apply Rdiv_lt_0_compat; lra.
    - apply Rmult_le_reg_r with P2; [lra |].
      unfold Rdiv. rewrite Rmult_assoc, Rinv_l, Rmult_1_r; lra. }
  assert (Hs : 0 < 8.314e-3 / H_vap) by (apply Rdiv_lt_0_compat; lra).
  unfold Rdiv at 1. rewrite Rmult_1_l. nra.
Qed.

(** Property X15.  A curve sampled up to the reference pressure never
    falls: for a reference state above absolute zero and a range
    [1e-9 <= pressureMin <= pressureMax <= P2], the 1000 temperatures of
    the curve are finite, above absolute zero, and non-decreasing along
    the curve. *)
Theorem curve_rises_below_reference (pressureMin pressureMax P2 T2 H_vap : R) :
  1e-9 <= pressureMin -> pressureMin <= pressureMax -> pressureMax <= P2 ->
  0 < H_vap -> 0 < T2 + 273.15 ->
  exists (curve : list (R * float64)) (ts : list R),
    generateCurve pressureMin pressureMax 1000 (Fin P2) (Fin T2) (Fin H_vap)
    = Ok curve
    /\ temperatures curve = map Fin ts
    /\ non_decreasing ts
    /\ Forall (fun t => -273.15 < t) ts.
Proof.
  intros Hlo Hle Hhi HH HK.
  assert (HP2 : 0 < P2) by lra.
  destruct (linspace_ordered_within pressureMin pressureMax 1000 Hle)
    as (y & Hy & Hinc & Hall); [lia |].
  rewrite Forall_forall in Hall.
  set (g := fun P => 1 / real_denominator P P2 T2 H_vap - 273.15).
  assert (Hk : 0 < / (T2 + 273.15)) by now apply Rinv_0_lt_compat.
  assert (Hden : forall P, In P y ->
                   / (T2 + 273.15) <= real_denominator P P2 T2 H_vap).
  { intros P HP. specialize (Hall _ HP).
    apply real_denominator_below_reference; lra. }
  exists (combine y
            (map (fun P => calculate_new_boiling_point (Fin P) (Fin P2)
                             (Fin T2) (Fin H_vap)) y)), (map g y).
  split; [now apply generateCurve_points |].
  split; [| split].
  - rewrite temperatures_combine, map_map. apply map_ext_in.
    intros P HP. specialize (Hden _ HP).
    apply calculate_regular; lra.
  - apply map_non_decreasing; [assumption |].
    intros a b Ha Hb Hab. unfold g.
    pose proof (Hden _ Ha) as Da. pose proof (Hden _ Hb) as Db.
    assert (Hab' : real_denominator b P2 T2 H_vap
                   <= real_denominator a P2 T2 H_vap)
      by (apply real_denominator_antitone; assumption).
    assert (Hinv : / real_denominator a P2 T2 H_vap
                   <= / real_denominator b P2 T2 H_vap)
      by (apply Rinv_le_contravar; lra).
    unfold Rdiv. rewrite !Rmult_1_l. lra.
  - apply Forall_forall. intros t Ht.
    apply in_map_iff in Ht as (P & <- & HP). specialize (Hden _ HP).
    unfold g. unfold Rdiv. rewrite Rmult_1_l.
    assert (HD0 : 0 < real_denominator P P2 T2 H_vap) by lra.
    pose proof (Rinv_0_lt_compat _ HD0) as Hpos. lra.
Qed.

Lemma curve_rises_below_reference_witness :
  exists (curve : list (R * float64)) (ts : list R),
    generateCurve 1 760 1000 (Fin 760) (Fin 100) (Fin 40.65) = Ok curve
    /\ temperatures curve = map Fin ts
    /\ non_decreasing ts
    /\ Forall (fun t => -273.15 < t) ts.
Proof.
  apply (curve_rises_below_reference 1 760 760 100 40.65); lra.
Defined.
